(** * The Modbus constants message of plc4c: parser, serializer, lengths

    A shallow embedding of
    [sandbox/plc4c/generated-sources/modbus/src/modbus_constants.c]
    together with a model of the bit-addressable read and write buffers
    the generated code calls into. *)

From Stdlib Require Import ZArith List Bool Lia PeanoNat.
From Stdlib Require Import Strings.Byte.
Import ListNotations.

Local Open Scope Z_scope.

(** ** Bits, most significant first *)

Module Bits.

(** The eight bits of a byte, most significant first. *)
Definition of_byte (x : byte) : list bool :=
  let '(b0, (b1, (b2, (b3, (b4, (b5, (b6, b7))))))) := Byte.to_bits x in
  [b7; b6; b5; b4; b3; b2; b1; b0].

Definition to_byte (b7 b6 b5 b4 b3 b2 b1 b0 : bool) : byte :=
  Byte.of_bits (b0, (b1, (b2, (b3, (b4, (b5, (b6, b7))))))).

(** A byte region seen as one run of bits. *)
Fixpoint of_bytes (d : list byte) : list bool :=
  match d with
  | [] => []
  | x :: d' => of_byte x ++ of_bytes d'
  end.

(** Packs a run of bits into bytes; a trailing group of fewer than
    eight bits is dropped (the buffers only ever pack whole bytes). *)
Fixpoint to_bytes (l : list bool) : list byte :=
  match l with
  | b7 :: b6 :: b5 :: b4 :: b3 :: b2 :: b1 :: b0 :: l' =>
      to_byte b7 b6 b5 b4 b3 b2 b1 b0 :: to_bytes l'
  | _ => []
  end.

(** The unsigned value of a run of bits, big-endian. *)
Definition to_Z (l : list bool) : Z :=
  fold_left (fun acc b => 2 * acc + Z.b2z b) l 0.

(** The [w] low bits of [v], most significant first. *)
Fixpoint of_Z (w : nat) (v : Z) : list bool :=
  match w with
  | O => []
  | S w' => Z.testbit v (Z.of_nat w') :: of_Z w' v
  end.

End Bits.

(** ** Cursor buffers

    A cursor buffer owns a byte region and a current bit position; its
    capacity is the size of the region, in bits. *)

Record plc4c_spi_read_buffer := mk_read_buffer {
  r_data : list byte;
  r_pos : nat
}.

Record plc4c_spi_write_buffer := mk_write_buffer {
  w_data : list byte;
  w_pos : nat
}.

Definition r_capacity (buf : plc4c_spi_read_buffer) : nat :=
  (8 * length (r_data buf))%nat.

Definition w_capacity (buf : plc4c_spi_write_buffer) : nat :=
  (8 * length (w_data buf))%nat.

(** Bits left between the cursor and the end of the region. *)
Definition r_remaining (buf : plc4c_spi_read_buffer) : nat :=
  (r_capacity buf - r_pos buf)%nat.

Definition w_remaining (buf : plc4c_spi_write_buffer) : nat :=
  (w_capacity buf - w_pos buf)%nat.

(** The [width] bits that start at bit offset [pos] of a region. *)
Definition bits_at (d : list byte) (pos width : nat) : list bool :=
  firstn width (skipn pos (Bits.of_bytes d)).

(** The region with the bits from offset [pos] on overwritten by [l]. *)
Definition put_bits (d : list byte) (pos : nat) (l : list bool) : list byte :=
  let bits := Bits.of_bytes d in
  Bits.to_bytes (firstn pos bits ++ l ++ skipn (pos + length l) bits).

Inductive spi_error := OutOfBounds | ValueTooLarge.

(** Modelled from the spec: [plc4c/spi/read_buffer.h] and its
    implementation are absent. Section 4.1: [read_unsigned] reads
    [width_bits] bits starting at the current position, advances the
    position by [width_bits] and returns the big-endian unsigned value; it
    fails with [OutOfBounds] if [position + width_bits > capacity], and a
    failed read consumes nothing. *)
Definition read_unsigned (buf : plc4c_spi_read_buffer) (width_bits : nat)
  : spi_error + Z * plc4c_spi_read_buffer :=
  if (r_pos buf + width_bits <=? r_capacity buf)%nat
  then inr (Bits.to_Z (bits_at (r_data buf) (r_pos buf) width_bits),
            mk_read_buffer (r_data buf) (r_pos buf + width_bits))
  else inl OutOfBounds.

(** Modelled from the spec: [plc4c/spi/write_buffer.h] and its
    implementation are absent. Section 4.2: [write_unsigned] validates
    that [value] fits in [width_bits] (fails with [ValueTooLarge]
    otherwise), writes the bit pattern at the current position and advances
    the position by [width_bits]; section 3: an operation that would exceed
    the capacity fails instead of performing partial I/O. The buffer is
    pre-sized. *)
Definition write_unsigned (buf : plc4c_spi_write_buffer) (width_bits : nat)
  (value : Z) : spi_error + plc4c_spi_write_buffer :=
  if negb ((0 <=? value) && (value <? 2 ^ Z.of_nat width_bits))
  then inl ValueTooLarge
  else if (w_pos buf + width_bits <=? w_capacity buf)%nat
  then inr (mk_write_buffer
              (put_bits (w_data buf) (w_pos buf) (Bits.of_Z width_bits value))
              (w_pos buf + width_bits))
  else inl OutOfBounds.

(** ** The C side: integers, pointers, the allocator *)

Definition uint8 (x : Z) : Z := x mod 2 ^ 8.
Definition uint16 (x : Z) : Z := x mod 2 ^ 16.

Inductive ptr := NULL | Addr (a : positive).

Definition ptr_eqb (p q : ptr) : bool :=
  match p, q with
  | NULL, NULL => true
  | Addr a, Addr b => Pos.eqb a b
  | _, _ => false
  end.

(** Modelled from the spec: [modbus_constants.h] is absent. Section 3: a
    constant field has no slot in the decoded message, and the only field
    of this message is a constant one, so the structure carries nothing. *)
Record plc4c_modbus_read_write_modbus_constants :=
  mk_modbus_constants { }.

(** Modelled from the spec: the constant is declared in the absent
    [modbus_constants.h]; section 8 gives it as 502 (0x01F6). *)
Definition MODBUS_READ_WRITE_MODBUS_CONSTANTS_MODBUS_TCP_DEFAULT_PORT : Z := 502.

(** Modelled from the spec: the enumeration is declared in an absent
    header. [OK], [NO_MEMORY] and [PARSE_ERROR] are the codes the source
    returns; [OUT_OF_BOUNDS] stands for the [OutOfBounds] kind of
    section 7. *)
Inductive plc4c_return_code := OK | NO_MEMORY | PARSE_ERROR | OUT_OF_BOUNDS.

(** The allocator: the blocks that are live, and how many more blocks it
    can hand out before it is exhausted. *)
Record heap := mk_heap {
  live : list positive;
  avail : nat
}.

Definition fresh (l : list positive) : positive :=
  Pos.succ (fold_right Pos.max 1%positive l).

(** [malloc] hands out a block that is not live, or [NULL] when the
    allocator is exhausted. *)
Definition malloc (h : heap) : ptr * heap :=
  match avail h with
  | O => (NULL, h)
  | S n => let a := fresh (live h) in (Addr a, mk_heap (a :: live h) n)
  end.

Definition is_live (h : heap) (p : ptr) : bool :=
  match p with
  | NULL => false
  | Addr a => existsb (Pos.eqb a) (live h)
  end.

(** The message a pointer designates. *)
Definition deref (h : heap) (p : ptr)
  : option plc4c_modbus_read_write_modbus_constants :=
  if is_live h p then Some mk_modbus_constants else None.

(** ** What a call of the parser can see and change *)

Record parse_state := mk_parse_state {
  buf : plc4c_spi_read_buffer;   (* the object [buf] points to *)
  mem : heap;
  _message : ptr                 (* the caller's slot [*_message] *)
}.

Definition C (A : Type) : Type := parse_state -> A * parse_state.

Definition ret {A} (a : A) : C A := fun st => (a, st).

Definition bind {A B} (c : C A) (k : A -> C B) : C B :=
  fun st => let '(a, st') := c st in k a st'.

Notation "x <- c ;; k" := (bind c (fun x => k))
  (at level 61, c at next level, right associativity).
Notation "c ;;; k" := (bind c (fun _ => k))
  (at level 61, right associativity).

(** The position query: the current bit offset, without side effects. *)
Definition plc4c_spi_read_get_pos : C Z :=
  fun st => (Z.of_nat (r_pos (buf st)), st).

Definition call_malloc : C ptr :=
  fun st => let '(p, h) := malloc (mem st) in
            (p, mk_parse_state (buf st) h (_message st)).

Definition store_message (p : ptr) : C unit :=
  fun st => (tt, mk_parse_state (buf st) (mem st) p).

Definition load_message : C ptr :=
  fun st => (_message st, st).

(** The writer as the generated code calls it: the outcome is not looked
    at, only the buffer carries the effect. *)
Definition plc4c_spi_write_unsigned_int (b : plc4c_spi_write_buffer)
  (num_bits : nat) (value : Z) : plc4c_spi_write_buffer :=
  match write_unsigned b num_bits value with
  | inr b' => b'
  | inl _ => b
  end.

Section Parse.

(** The generated code takes the result of the reader as a plain
    integer, so a read that fails hands back some integer too; which
    one is left open. *)
Variable failed_read : plc4c_spi_read_buffer -> nat -> Z.

Definition plc4c_spi_read_unsigned_int (num_bits : nat) : C Z :=
  fun st =>
    match read_unsigned (buf st) num_bits with
    | inr (v, b) => (v, mk_parse_state b (mem st) (_message st))
    | inl _ => (failed_read (buf st) num_bits, st)
    end.

Definition plc4c_modbus_read_write_modbus_constants_parse
  : C plc4c_return_code :=
  pos <- plc4c_spi_read_get_pos ;;
  let startPos := uint16 pos in
  (* [curPos] is declared and never assigned or read. *)
  (* Allocate enough memory to contain this data structure. *)
  p <- call_malloc ;;
  store_message p ;;;
  m <- load_message ;;
  if ptr_eqb m NULL then ret NO_MEMORY
  else
    (* Const Field (modbusTcpDefaultPort) *)
    v <- plc4c_spi_read_unsigned_int 16 ;;
    let modbusTcpDefaultPort := uint16 v in
    if negb (modbusTcpDefaultPort
             =? MODBUS_READ_WRITE_MODBUS_CONSTANTS_MODBUS_TCP_DEFAULT_PORT)
    then ret PARSE_ERROR
    else ret OK.

End Parse.

Definition plc4c_modbus_read_write_modbus_constants_serialize
  (b : plc4c_spi_write_buffer) (_message : ptr)
  : plc4c_return_code * plc4c_spi_write_buffer :=
  (* Const Field (modbusTcpDefaultPort) *)
  let b := plc4c_spi_write_unsigned_int b 16
             MODBUS_READ_WRITE_MODBUS_CONSTANTS_MODBUS_TCP_DEFAULT_PORT in
  (OK, b).

Definition plc4c_modbus_read_write_modbus_constants_length_in_bits
  (_message : ptr) : Z :=
  let lengthInBits := 0 in
  (* Const Field (modbusTcpDefaultPort) *)
  let lengthInBits := uint8 (lengthInBits + 16) in
  lengthInBits.

Definition plc4c_modbus_read_write_modbus_constants_length_in_bytes
  (_message : ptr) : Z :=
  uint8 (plc4c_modbus_read_write_modbus_constants_length_in_bits _message / 8).

(** A read buffer over the region a write buffer has filled, with the
    cursor at bit offset [pos]. *)
Definition read_back (b : plc4c_spi_write_buffer) (pos : nat)
  : plc4c_spi_read_buffer :=
  mk_read_buffer (w_data b) pos.

(** A reader that hands back 0 when it fails. *)
Definition read_zero (_ : plc4c_spi_read_buffer) (_ : nat) : Z := 0.

(** A reader that hands back the constant itself when it fails. *)
Definition read_502 (_ : plc4c_spi_read_buffer) (_ : nat) : Z := 502.

(** Two bytes that do not spell the constant: 0x017F = 383. *)
Definition st_017F : parse_state :=
  mk_parse_state (mk_read_buffer [x01; x7f] 0) (mk_heap [] 1) NULL.

(** A region of a single byte: too short for the 16-bit field. *)
Definition st_short : parse_state :=
  mk_parse_state (mk_read_buffer [x01] 0) (mk_heap [] 1) NULL.

(** An allocator that has nothing left to hand out. *)
Definition heap_exhausted : heap := mk_heap [] 0.

(** * Properties *)

Example bits_of_byte_01 :
  Bits.of_byte x01 = [false; false; false; false; false; false; false; true].
Proof. reflexivity. Qed.

Example bits_to_Z_017F :
  Bits.to_Z (Bits.of_bytes [x01; x7f]) = 383.
Proof. reflexivity. Qed.

Example bits_of_Z_502 :
  Bits.to_bytes (Bits.of_Z 16 502) = [x01; xf6].
Proof. reflexivity. Qed.

Example parse_01F6 :
  plc4c_modbus_read_write_modbus_constants_parse read_zero
    (mk_parse_state (mk_read_buffer [x01; xf6] 0) (mk_heap [] 1) NULL)
  = (OK, mk_parse_state (mk_read_buffer [x01; xf6] 16)
           (mk_heap [2%positive] 0) (Addr 2)).
Proof. reflexivity. Qed.

Example serialize_empty :
  plc4c_modbus_read_write_modbus_constants_serialize
    (mk_write_buffer [x00; x00; x00] 4) NULL
  = (OK, mk_write_buffer [x00; x1f; x60] 20).
Proof. reflexivity. Qed.

(** ** Bits and bytes *)

Lemma of_byte_length x : length (Bits.of_byte x) = 8%nat.
Proof.
  unfold Bits.of_byte.
  destruct (Byte.to_bits x) as (b0 & b1 & b2 & b3 & b4 & b5 & b6 & b7).
  reflexivity.
Qed.

Lemma of_bytes_length d : length (Bits.of_bytes d) = (8 * length d)%nat.
Proof.
  induction d as [|x d IH]; simpl; [reflexivity|].
  rewrite length_app, of_byte_length, IH. lia.
Qed.

Lemma to_bytes_of_byte x l :
  Bits.to_bytes (Bits.of_byte x ++ l) = x :: Bits.to_bytes l.
Proof.
  unfold Bits.of_byte.
  destruct (Byte.to_bits x) as (b0 & b1 & b2 & b3 & b4 & b5 & b6 & b7) eqn:E.
  simpl. unfold Bits.to_byte. rewrite <- E, Byte.of_bits_to_bits. reflexivity.
Qed.

Lemma to_bytes_of_bytes d : Bits.to_bytes (Bits.of_bytes d) = d.
Proof.
  induction d as [|x d IH]; simpl; [reflexivity|].
  rewrite to_bytes_of_byte, IH. reflexivity.
Qed.

Lemma of_byte_to_byte b7 b6 b5 b4 b3 b2 b1 b0 :
  Bits.of_byte (Bits.to_byte b7 b6 b5 b4 b3 b2 b1 b0)
  = [b7; b6; b5; b4; b3; b2; b1; b0].
Proof.
  unfold Bits.of_byte, Bits.to_byte.
  rewrite Byte.to_bits_of_bits. reflexivity.
Qed.

Lemma of_bytes_to_bytes n : forall l,
  length l = (8 * n)%nat -> Bits.of_bytes (Bits.to_bytes l) = l.
Proof.
  induction n as [|n IH]; intros l Hl.
  - destruct l; [reflexivity | discriminate].
  - do 8 (destruct l as [|? l]; [simpl in Hl; lia|]).
    cbn [Bits.to_bytes Bits.of_bytes].
    rewrite of_byte_to_byte, IH by (simpl in Hl; lia).
    reflexivity.
Qed.

Lemma to_bytes_length n : forall l,
  length l = (8 * n)%nat -> length (Bits.to_bytes l) = n.
Proof.
  induction n as [|n IH]; intros l Hl.
  - destruct l; [reflexivity | discriminate].
  - do 8 (destruct l as [|? l]; [simpl in Hl; lia|]).
    cbn [Bits.to_bytes length]. rewrite IH by (simpl in Hl; lia).
    reflexivity.
Qed.

Lemma of_Z_length w v : length (Bits.of_Z w v) = w.
Proof. induction w; simpl; congruence. Qed.

Lemma mod_pow2_succ v w :
  0 <= w ->
  v mod 2 ^ (w + 1) = Z.b2z (Z.testbit v w) * 2 ^ w + v mod 2 ^ w.
Proof.
  intros Hw.
  rewrite Z.pow_add_r, Z.pow_1_r by lia.
  rewrite Z.rem_mul_r by lia.
  rewrite Z.testbit_spec' by lia. lia.
Qed.

Lemma fold_of_Z w v : forall acc,
  fold_left (fun acc b => 2 * acc + Z.b2z b) (Bits.of_Z w v) acc
  = acc * 2 ^ Z.of_nat w + v mod 2 ^ Z.of_nat w.
Proof.
  induction w as [|w IH]; intros acc.
  - simpl. rewrite Z.mod_1_r. lia.
  - cbn [Bits.of_Z fold_left]. rewrite IH.
    rewrite Nat2Z.inj_succ, <- Z.add_1_r.
    rewrite (mod_pow2_succ v (Z.of_nat w)) by lia.
    rewrite Z.pow_add_r, Z.pow_1_r by lia. ring.
Qed.

Lemma to_Z_of_Z w v : Bits.to_Z (Bits.of_Z w v) = v mod 2 ^ Z.of_nat w.
Proof. unfold Bits.to_Z. rewrite fold_of_Z. lia. Qed.

(** ** Overwriting a run of bits *)

Section PutBits.

Variables (d : list byte) (pos : nat) (l : list bool).
Hypothesis fits : (pos + length l <= 8 * length d)%nat.

Lemma put_bits_run_length :
  length (firstn pos (Bits.of_bytes d) ++ l
          ++ skipn (pos + length l) (Bits.of_bytes d))
  = (8 * length d)%nat.
Proof.
  rewrite !length_app, length_firstn, length_skipn, of_bytes_length. lia.
Qed.

Lemma put_bits_bits :
  Bits.of_bytes (put_bits d pos l)
  = firstn pos (Bits.of_bytes d) ++ l
    ++ skipn (pos + length l) (Bits.of_bytes d).
Proof.
  unfold put_bits. apply (of_bytes_to_bytes (length d)).
  apply put_bits_run_length.
Qed.

Lemma put_bits_length : length (put_bits d pos l) = length d.
Proof.
  unfold put_bits. apply to_bytes_length, put_bits_run_length.
Qed.

Lemma firstn_pos_length :
  length (firstn pos (Bits.of_bytes d)) = pos.
Proof. rewrite length_firstn, of_bytes_length. lia. Qed.

(** The bits written are the bits read back. *)
Lemma bits_at_put_bits : bits_at (put_bits d pos l) pos (length l) = l.
Proof.
  unfold bits_at. rewrite put_bits_bits.
  rewrite skipn_app, firstn_pos_length, Nat.sub_diag.
  rewrite (skipn_all2 (firstn pos _)) by (rewrite firstn_pos_length; lia).
  simpl. rewrite firstn_app, Nat.sub_diag, firstn_all. simpl.
  apply app_nil_r.
Qed.

(** The bits before the run are left as they were. *)
Lemma put_bits_before :
  firstn pos (Bits.of_bytes (put_bits d pos l))
  = firstn pos (Bits.of_bytes d).
Proof.
  rewrite put_bits_bits.
  rewrite firstn_app, firstn_pos_length, Nat.sub_diag. simpl.
  rewrite app_nil_r. apply firstn_all2. rewrite firstn_pos_length. lia.
Qed.

(** The bits after the run are left as they were. *)
Lemma put_bits_after :
  skipn (pos + length l) (Bits.of_bytes (put_bits d pos l))
  = skipn (pos + length l) (Bits.of_bytes d).
Proof.
  rewrite put_bits_bits, app_assoc.
  rewrite skipn_app.
  rewrite skipn_all2 by (rewrite length_app, firstn_pos_length; lia).
  rewrite length_app, firstn_pos_length, Nat.sub_diag. reflexivity.
Qed.

End PutBits.

Lemma to_Z_split l : forall acc,
  fold_left (fun acc b => 2 * acc + Z.b2z b) l acc
  = acc * 2 ^ Z.of_nat (length l) + Bits.to_Z l
  /\ 0 <= Bits.to_Z l < 2 ^ Z.of_nat (length l).
Proof.
  unfold Bits.to_Z.
  induction l as [|b l IH]; intros acc.
  - simpl. lia.
  - cbn [fold_left length].
    destruct (IH (2 * acc + Z.b2z b)) as [E1 _].
    destruct (IH (2 * 0 + Z.b2z b)) as [E2 B].
    rewrite E1, E2, Nat2Z.inj_succ, Z.pow_succ_r by lia.
    destruct b; cbn [Z.b2z]; lia.
Qed.

Lemma to_Z_range l : 0 <= Bits.to_Z l < 2 ^ Z.of_nat (length l).
Proof. apply (to_Z_split l 0). Qed.

Lemma bits_at_length d pos width :
  (pos + width <= 8 * length d)%nat -> length (bits_at d pos width) = width.
Proof.
  intros H. unfold bits_at.
  rewrite length_firstn, length_skipn, of_bytes_length. lia.
Qed.

(** A 16-bit read yields a value that the [uint16_t] local holds as is. *)
Lemma uint16_bits_at d pos :
  (pos + 16 <= 8 * length d)%nat ->
  uint16 (Bits.to_Z (bits_at d pos 16)) = Bits.to_Z (bits_at d pos 16).
Proof.
  intros H. unfold uint16. apply Z.mod_small.
  pose proof (to_Z_range (bits_at d pos 16)) as R.
  rewrite bits_at_length in R by assumption. exact R.
Qed.

(** ** The reader and the writer *)

Lemma read_unsigned_in_bounds b w :
  (w <= r_remaining b)%nat -> (0 < w)%nat ->
  read_unsigned b w
  = inr (Bits.to_Z (bits_at (r_data b) (r_pos b) w),
         mk_read_buffer (r_data b) (r_pos b + w)).
Proof.
  unfold read_unsigned, r_remaining. intros H Hw.
  destruct (Nat.leb_spec (r_pos b + w) (r_capacity b)); [reflexivity | lia].
Qed.

Lemma read_unsigned_out_of_bounds b w :
  (r_remaining b < w)%nat -> read_unsigned b w = inl OutOfBounds.
Proof.
  unfold read_unsigned, r_remaining. intros H.
  destruct (Nat.leb_spec (r_pos b + w) (r_capacity b)); [lia | reflexivity].
Qed.

Lemma write_unsigned_in_bounds b w v :
  (w <= w_remaining b)%nat -> (0 < w)%nat -> 0 <= v < 2 ^ Z.of_nat w ->
  write_unsigned b w v
  = inr (mk_write_buffer (put_bits (w_data b) (w_pos b) (Bits.of_Z w v))
           (w_pos b + w)).
Proof.
  unfold write_unsigned, w_remaining. intros H Hw Hv.
  destruct (Z.leb_spec 0 v); [|lia].
  destruct (Z.ltb_spec v (2 ^ Z.of_nat w)); [|lia]. simpl.
  destruct (Nat.leb_spec (w_pos b + w) (w_capacity b)); [reflexivity | lia].
Qed.

Lemma write_unsigned_out_of_bounds b w v :
  (w_remaining b < w)%nat -> 0 <= v < 2 ^ Z.of_nat w ->
  write_unsigned b w v = inl OutOfBounds.
Proof.
  unfold write_unsigned, w_remaining. intros H Hv.
  destruct (Z.leb_spec 0 v); [|lia].
  destruct (Z.ltb_spec v (2 ^ Z.of_nat w)); [|lia]. simpl.
  destruct (Nat.leb_spec (w_pos b + w) (w_capacity b)); [lia | reflexivity].
Qed.

(** ** The allocator *)

Lemma fresh_above l a : In a l -> (a < fresh l)%positive.
Proof.
  unfold fresh. induction l as [|x l IH]; simpl; [tauto|].
  intros [->|H]; [|specialize (IH H)]; lia.
Qed.

Lemma fresh_not_live l : ~ In (fresh l) l.
Proof. intros H. apply fresh_above in H. lia. Qed.

Lemma malloc_null h : fst (malloc h) = NULL <-> avail h = O.
Proof.
  unfold malloc. destruct (avail h); simpl; split; congruence.
Qed.

(** ** The parser, path by path *)

Lemma parse_paths f st :
  plc4c_modbus_read_write_modbus_constants_parse f st =
  match malloc (mem st) with
  | (NULL, h) => (NO_MEMORY, mk_parse_state (buf st) h NULL)
  | (Addr a, h) =>
      match read_unsigned (buf st) 16%nat with
      | inr (v, b) =>
          (if uint16 v =? 502 then OK else PARSE_ERROR,
           mk_parse_state b h (Addr a))
      | inl _ =>
          (if uint16 (f (buf st) 16%nat) =? 502 then OK else PARSE_ERROR,
           mk_parse_state (buf st) h (Addr a))
      end
  end.
Proof.
  unfold plc4c_modbus_read_write_modbus_constants_parse, bind, ret,
    plc4c_spi_read_get_pos, call_malloc, store_message, load_message,
    plc4c_spi_read_unsigned_int,
    MODBUS_READ_WRITE_MODBUS_CONSTANTS_MODBUS_TCP_DEFAULT_PORT.
  destruct (malloc (mem st)) as [[|a] h]; cbn; [reflexivity|].
  destruct (read_unsigned (buf st) 16%nat) as [e|[v b]]; cbn.
  - destruct (uint16 (f (buf st) 16%nat) =? 502); reflexivity.
  - destruct (uint16 v =? 502); reflexivity.
Qed.

(** ** The serializer *)

Lemma serialize_in_bounds wb pm :
  (16 <= w_remaining wb)%nat ->
  plc4c_modbus_read_write_modbus_constants_serialize wb pm
  = (OK, mk_write_buffer
           (put_bits (w_data wb) (w_pos wb) (Bits.of_Z 16 502))
           (w_pos wb + 16)).
Proof.
  intros H.
  unfold plc4c_modbus_read_write_modbus_constants_serialize,
    plc4c_spi_write_unsigned_int,
    MODBUS_READ_WRITE_MODBUS_CONSTANTS_MODBUS_TCP_DEFAULT_PORT.
  rewrite write_unsigned_in_bounds by (try assumption; cbn; lia).
  reflexivity.
Qed.

Lemma room_fits (wb : plc4c_spi_write_buffer) (w : nat) :
  (w <= w_remaining wb)%nat -> (0 < w)%nat ->
  (w_pos wb + w <= 8 * length (w_data wb))%nat.
Proof. unfold w_remaining, w_capacity. lia. Qed.

(** Whole bytes of a region, seen through its bits. *)
Lemma of_bytes_app d1 d2 :
  Bits.of_bytes (d1 ++ d2) = Bits.of_bytes d1 ++ Bits.of_bytes d2.
Proof.
  induction d1 as [|x d1 IH]; simpl; [reflexivity|].
  rewrite IH. apply app_assoc.
Qed.

Lemma skipn_of_bytes k : forall d,
  skipn (8 * k) (Bits.of_bytes d) = Bits.of_bytes (skipn k d).
Proof.
  induction k as [|k IH]; intros d; [reflexivity|].
  destruct d as [|x d].
  - cbn [Bits.of_bytes skipn]. apply skipn_nil.
  - replace (8 * S k)%nat with (8 * k + length (Bits.of_byte x))%nat
      by (rewrite of_byte_length; lia).
    cbn [Bits.of_bytes skipn].
    rewrite <- skipn_skipn, skipn_app, Nat.sub_diag, skipn_all.
    apply IH.
Qed.

Lemma firstn_of_bytes n : forall d,
  firstn (8 * n) (Bits.of_bytes d) = Bits.of_bytes (firstn n d).
Proof.
  induction n as [|n IH]; intros d; [reflexivity|].
  destruct d as [|x d].
  - cbn [Bits.of_bytes firstn]. apply firstn_nil.
  - replace (8 * S n)%nat with (length (Bits.of_byte x) + 8 * n)%nat
      by (rewrite of_byte_length; lia).
    cbn [Bits.of_bytes firstn].
    rewrite firstn_app_2, IH. reflexivity.
Qed.

Lemma bits_at_bytes d k n :
  bits_at d (8 * k) (8 * n) = Bits.of_bytes (firstn n (skipn k d)).
Proof. unfold bits_at. rewrite skipn_of_bytes, firstn_of_bytes. reflexivity. Qed.

(** * The claims *)

(** C4 -- constant fidelity. Whatever message pointer is passed, on a
    write buffer with at least 16 bits of room the serializer returns
    [OK], moves the cursor 16 bits on and leaves in those 16 bits the
    big-endian pattern of 502; every other bit of the region is as it was
    and the region keeps its size. When the cursor stood on a byte
    boundary the two bytes written are 0x01 0xF6. *)
Theorem serialize_writes_constant (wb : plc4c_spi_write_buffer) (pm : ptr) :
  (16 <= w_remaining wb)%nat ->
  let r := plc4c_modbus_read_write_modbus_constants_serialize wb pm in
  let bits := Bits.of_bytes (w_data wb) in
  let bits' := Bits.of_bytes (w_data (snd r)) in
  fst r = OK
  /\ w_pos (snd r) = (w_pos wb + 16)%nat
  /\ bits_at (w_data (snd r)) (w_pos wb) 16
     = Bits.of_Z 16 MODBUS_READ_WRITE_MODBUS_CONSTANTS_MODBUS_TCP_DEFAULT_PORT
  /\ Bits.to_Z (bits_at (w_data (snd r)) (w_pos wb) 16) = 502
  /\ firstn (w_pos wb) bits' = firstn (w_pos wb) bits
  /\ skipn (w_pos wb + 16) bits' = skipn (w_pos wb + 16) bits
  /\ length (w_data (snd r)) = length (w_data wb)
  /\ (forall k, w_pos wb = (8 * k)%nat ->
      firstn 2 (skipn k (w_data (snd r))) = [x01; xf6]).
Proof.
  intros Hroom r bits bits'. subst r bits bits'.
  rewrite serialize_in_bounds by assumption. cbn [fst snd w_data w_pos].
  assert (Hfit : (w_pos wb + length (Bits.of_Z 16 502)
                  <= 8 * length (w_data wb))%nat)
    by (rewrite of_Z_length; apply room_fits; [assumption | lia]).
  pose proof (bits_at_put_bits _ _ _ Hfit) as Hrun.
  rewrite of_Z_length in Hrun.
  repeat split.
  - exact Hrun.
  - rewrite Hrun. reflexivity.
  - apply put_bits_before. exact Hfit.
  - pose proof (put_bits_after _ _ _ Hfit) as A.
    rewrite of_Z_length in A. exact A.
  - apply put_bits_length. exact Hfit.
  - intros k Hk. rewrite Hk in Hrun.
    change 16%nat with (8 * 2)%nat in Hrun at 2.
    rewrite bits_at_bytes in Hrun.
    apply (f_equal Bits.to_bytes) in Hrun.
    rewrite to_bytes_of_bytes in Hrun. rewrite <- Hk in Hrun. exact Hrun.
Qed.

Lemma serialize_writes_constant_witness :
  (16 <= w_remaining (mk_write_buffer [xff; xff; xff] 8))%nat
  /\ fst (plc4c_modbus_read_write_modbus_constants_serialize
            (mk_write_buffer [xff; xff; xff] 8) (Addr 7)) = OK
  /\ firstn 2 (skipn 1
       (w_data (snd (plc4c_modbus_read_write_modbus_constants_serialize
                       (mk_write_buffer [xff; xff; xff] 8) (Addr 7)))))
     = [x01; xf6].
Proof.
  assert (Hroom : (16 <= w_remaining (mk_write_buffer [xff; xff; xff] 8))%nat)
    by (vm_compute; lia).
  split; [exact Hroom|].
  destruct (serialize_writes_constant _ (Addr 7) Hroom)
    as (H1 & _ & _ & _ & _ & _ & _ & H8).
  split; [exact H1 | exact (H8 1%nat eq_refl)].
Defined.

(** C5 -- length consistency. For every message the length in bits is 16
    and the length in bytes is 2, so the first is eight times the second;
    both are functions of the message pointer alone and take no buffer. *)
Theorem length_in_bits_and_bytes (m : ptr) :
  plc4c_modbus_read_write_modbus_constants_length_in_bits m = 16
  /\ plc4c_modbus_read_write_modbus_constants_length_in_bytes m = 2
  /\ plc4c_modbus_read_write_modbus_constants_length_in_bits m
     = 8 * plc4c_modbus_read_write_modbus_constants_length_in_bytes m.
Proof. repeat split. Qed.

(** C6, as stated, fails: on a write buffer with no room at all the
    16-bit write cannot complete, and the serializer still returns [OK]. *)
Lemma serialize_exhausted_returns_ok :
  write_unsigned (mk_write_buffer [] 0) 16
    MODBUS_READ_WRITE_MODBUS_CONSTANTS_MODBUS_TCP_DEFAULT_PORT
  = inl OutOfBounds
  /\ fst (plc4c_modbus_read_write_modbus_constants_serialize
            (mk_write_buffer [] 0) NULL) = OK.
Proof. split; reflexivity. Qed.

(** C6, amended -- on every write buffer with fewer than 16 bits of room
    the 16-bit write fails with [OutOfBounds] and the serializer returns
    [OK] all the same, with the buffer left exactly as it was. *)
Theorem serialize_ignores_write_failure (wb : plc4c_spi_write_buffer) (pm : ptr) :
  (w_remaining wb < 16)%nat ->
  write_unsigned wb 16
    MODBUS_READ_WRITE_MODBUS_CONSTANTS_MODBUS_TCP_DEFAULT_PORT
  = inl OutOfBounds
  /\ plc4c_modbus_read_write_modbus_constants_serialize wb pm = (OK, wb).
Proof.
  intros Hshort.
  assert (E : write_unsigned wb 16
                MODBUS_READ_WRITE_MODBUS_CONSTANTS_MODBUS_TCP_DEFAULT_PORT
              = inl OutOfBounds).
  { apply write_unsigned_out_of_bounds; [assumption|].
    unfold MODBUS_READ_WRITE_MODBUS_CONSTANTS_MODBUS_TCP_DEFAULT_PORT.
    cbn. lia. }
  split; [exact E|].
  unfold plc4c_modbus_read_write_modbus_constants_serialize,
    plc4c_spi_write_unsigned_int.
  rewrite E. reflexivity.
Qed.

Lemma serialize_ignores_write_failure_witness :
  (w_remaining (mk_write_buffer [xaa] 0) < 16)%nat
  /\ plc4c_modbus_read_write_modbus_constants_serialize
       (mk_write_buffer [xaa] 0) (Addr 3)
     = (OK, mk_write_buffer [xaa] 0).
Proof.
  assert (Hshort : (w_remaining (mk_write_buffer [xaa] 0) < 16)%nat)
    by (vm_compute; lia).
  split; [exact Hshort|].
  exact (proj2 (serialize_ignores_write_failure _ (Addr 3) Hshort)).
Defined.

(** C10 -- the serializer ignores its message argument. It is given no
    heap, so it cannot follow the pointer; and for any two message
    pointers, [NULL] included, on the same buffer state the return code
    and the resulting buffer are the same. *)
Theorem serialize_independent_of_message
  (wb : plc4c_spi_write_buffer) (p q : ptr) :
  plc4c_modbus_read_write_modbus_constants_serialize wb p
  = plc4c_modbus_read_write_modbus_constants_serialize wb q
  /\ plc4c_modbus_read_write_modbus_constants_serialize wb p
     = plc4c_modbus_read_write_modbus_constants_serialize wb NULL.
Proof. split; reflexivity. Qed.

(** C8 -- allocation failure reporting. The parser returns [NO_MEMORY]
    exactly when the allocation of the output message fails, and then it
    has read nothing: the read buffer, cursor included, is as it was. *)
Theorem parse_no_memory_iff f (st : parse_state) :
  (fst (plc4c_modbus_read_write_modbus_constants_parse f st) = NO_MEMORY
   <-> fst (malloc (mem st)) = NULL)
  /\ (fst (plc4c_modbus_read_write_modbus_constants_parse f st) = NO_MEMORY ->
      buf (snd (plc4c_modbus_read_write_modbus_constants_parse f st)) = buf st).
Proof.
  rewrite parse_paths.
  destruct (malloc (mem st)) as [[|a] h]; cbn [fst snd].
  - split; [tauto | reflexivity].
  - destruct (read_unsigned (buf st) 16) as [e|[v b]]; cbn [fst snd];
      match goal with |- context [if ?c then _ else _] => destruct c end;
      (split; [split|]; discriminate).
Qed.

Lemma parse_no_memory_iff_witness :
  fst (malloc (mk_heap [5%positive] 0)) = NULL
  /\ fst (plc4c_modbus_read_write_modbus_constants_parse read_zero
            (mk_parse_state (mk_read_buffer [x01; xf6] 0)
               (mk_heap [5%positive] 0) (Addr 5))) = NO_MEMORY
  /\ buf (snd (plc4c_modbus_read_write_modbus_constants_parse read_zero
                 (mk_parse_state (mk_read_buffer [x01; xf6] 0)
                    (mk_heap [5%positive] 0) (Addr 5))))
     = mk_read_buffer [x01; xf6] 0.
Proof.
  assert (Hnull : fst (malloc (mk_heap [5%positive] 0)) = NULL) by reflexivity.
  split; [exact Hnull|].
  destruct (parse_no_memory_iff read_zero
              (mk_parse_state (mk_read_buffer [x01; xf6] 0)
                 (mk_heap [5%positive] 0) (Addr 5))) as [Hiff Hbuf].
  pose proof (proj2 Hiff Hnull) as Hrc.
  split; [exact Hrc | exact (Hbuf Hrc)].
Defined.

(** C9 -- output assigned on parse error. Whenever the parser returns
    [PARSE_ERROR], the caller's slot holds the address of a block that was
    not live before the call and is live after it (allocated, not freed),
    so the slot is not [NULL] and designates the new message; a slot that
    held [NULL] or the address of a live block before the call has
    changed. *)
Theorem parse_error_leaves_message f (st : parse_state) :
  fst (plc4c_modbus_read_write_modbus_constants_parse f st) = PARSE_ERROR ->
  let st' := snd (plc4c_modbus_read_write_modbus_constants_parse f st) in
  exists a,
    _message st' = Addr a
    /\ ~ In a (live (mem st))
    /\ In a (live (mem st'))
    /\ _message st' <> NULL
    /\ deref (mem st') (_message st') = Some mk_modbus_constants
    /\ (_message st = NULL \/ is_live (mem st) (_message st) = true ->
        _message st' <> _message st).
Proof.
  rewrite parse_paths. unfold malloc.
  destruct (avail (mem st)) as [|n]; cbn [fst snd]; [discriminate|].
  intros _.
  assert (Hnew : forall b,
    let st' := mk_parse_state b
                 (mk_heap (fresh (live (mem st)) :: live (mem st)) n)
                 (Addr (fresh (live (mem st)))) in
    exists a,
      _message st' = Addr a
      /\ ~ In a (live (mem st))
      /\ In a (live (mem st'))
      /\ _message st' <> NULL
      /\ deref (mem st') (_message st') = Some mk_modbus_constants
      /\ (_message st = NULL \/ is_live (mem st) (_message st) = true ->
          _message st' <> _message st)).
  { intros b st'. subst st'. cbn [_message mem live].
    exists (fresh (live (mem st))). repeat split.
    - apply fresh_not_live.
    - left. reflexivity.
    - discriminate.
    - unfold deref, is_live. cbn [live existsb].
      rewrite Pos.eqb_refl. reflexivity.
    - intros [Hnull | Hlive] Heq.
      + rewrite Hnull in Heq. discriminate.
      + rewrite <- Heq in Hlive. cbn [is_live] in Hlive.
        apply existsb_exists in Hlive. destruct Hlive as (x & Hin & Hx).
        apply Pos.eqb_eq in Hx. subst x.
        exact (fresh_not_live _ Hin). }
  destruct (read_unsigned (buf st) 16) as [e|[v b]]; cbn [fst snd];
    apply Hnew.
Qed.

Lemma parse_error_leaves_message_witness :
  fst (plc4c_modbus_read_write_modbus_constants_parse read_zero
         (mk_parse_state (mk_read_buffer [x01; x7f] 0)
            (mk_heap [4%positive] 2) (Addr 4))) = PARSE_ERROR
  /\ exists a,
       _message (snd (plc4c_modbus_read_write_modbus_constants_parse read_zero
                        (mk_parse_state (mk_read_buffer [x01; x7f] 0)
                           (mk_heap [4%positive] 2) (Addr 4)))) = Addr a
       /\ ~ In a [4%positive].
Proof.
  assert (Hrc : fst (plc4c_modbus_read_write_modbus_constants_parse read_zero
                       (mk_parse_state (mk_read_buffer [x01; x7f] 0)
                          (mk_heap [4%positive] 2) (Addr 4))) = PARSE_ERROR)
    by reflexivity.
  split; [exact Hrc|].
  destruct (parse_error_leaves_message read_zero _ Hrc)
    as (a & Ha & Hfresh & _).
  exists a. split; [exact Ha | exact Hfresh].
Defined.

(** C2, as stated, fails: on the bytes 0x01 0x7F (383, not 502) the
    parser returns [PARSE_ERROR] with the cursor 16 bits past the start of
    the constant field, not at its start. *)
Lemma parse_mismatch_has_consumed_field :
  Bits.to_Z (bits_at (r_data (buf st_017F)) (r_pos (buf st_017F)) 16) = 383
  /\ fst (plc4c_modbus_read_write_modbus_constants_parse read_zero st_017F)
     = PARSE_ERROR
  /\ r_pos (buf (snd (plc4c_modbus_read_write_modbus_constants_parse
                        read_zero st_017F))) = 16%nat
  /\ r_pos (buf (snd (plc4c_modbus_read_write_modbus_constants_parse
                        read_zero st_017F)))
     <> r_pos (buf st_017F).
Proof. repeat split. discriminate. Qed.

(** C2, amended -- for every read buffer with at least 16 bits left whose
    next 16 bits, read big-endian, differ from the constant, and whenever
    the allocation succeeds, the parser returns the bare code
    [PARSE_ERROR]; the cursor then stands 16 bits past the start of the
    constant field and the bytes are as they were. *)
Theorem parse_mismatch f (st : parse_state) :
  (16 <= r_remaining (buf st))%nat ->
  Bits.to_Z (bits_at (r_data (buf st)) (r_pos (buf st)) 16)
  <> MODBUS_READ_WRITE_MODBUS_CONSTANTS_MODBUS_TCP_DEFAULT_PORT ->
  fst (malloc (mem st)) <> NULL ->
  let r := plc4c_modbus_read_write_modbus_constants_parse f st in
  fst r = PARSE_ERROR
  /\ r_pos (buf (snd r)) = (r_pos (buf st) + 16)%nat
  /\ r_data (buf (snd r)) = r_data (buf st).
Proof.
  intros Hroom Hne Halloc r. subst r.
  rewrite parse_paths.
  destruct (malloc (mem st)) as [[|a] h]; [now elim Halloc|].
  rewrite read_unsigned_in_bounds by (try assumption; lia).
  rewrite uint16_bits_at by (unfold r_remaining, r_capacity in Hroom; lia).
  destruct (Z.eqb_spec
              (Bits.to_Z (bits_at (r_data (buf st)) (r_pos (buf st)) 16)) 502)
    as [E|_]; [now elim Hne|].
  repeat split.
Qed.

Lemma parse_mismatch_witness :
  fst (plc4c_modbus_read_write_modbus_constants_parse read_zero st_017F)
  = PARSE_ERROR
  /\ r_pos (buf (snd (plc4c_modbus_read_write_modbus_constants_parse
                        read_zero st_017F)))
     = (r_pos (buf st_017F) + 16)%nat
  /\ r_data (buf (snd (plc4c_modbus_read_write_modbus_constants_parse
                         read_zero st_017F)))
     = r_data (buf st_017F).
Proof.
  apply (parse_mismatch read_zero st_017F).
  - vm_compute. lia.
  - vm_compute. discriminate.
  - vm_compute. discriminate.
Defined.

(** C3, as stated, fails: on a one-byte region, with an allocator that
    works, the parser does not return [OUT_OF_BOUNDS], whatever the failed
    read hands back; with a reader that hands back 0 it returns
    [PARSE_ERROR]. *)
Lemma parse_short_not_out_of_bounds :
  (r_remaining (buf st_short) < 16)%nat
  /\ (forall f,
        fst (plc4c_modbus_read_write_modbus_constants_parse f st_short)
        <> OUT_OF_BOUNDS)
  /\ fst (plc4c_modbus_read_write_modbus_constants_parse read_zero st_short)
     = PARSE_ERROR.
Proof.
  split; [vm_compute; lia|]. split; [|reflexivity].
  intros f. rewrite parse_paths. cbn.
  destruct (uint16 (f (mk_read_buffer [x01] 0) 16%nat) =? 502); discriminate.
Qed.

(** C3, amended -- for every read buffer with fewer than 16 bits left the
    16-bit read fails with [OutOfBounds], but the parser never returns
    [OUT_OF_BOUNDS]: it returns [NO_MEMORY] when the allocation fails, and
    otherwise [OK] or [PARSE_ERROR] according to whether the integer handed
    back by the failed read equals the constant. The read buffer is left as
    it was: nothing is consumed. *)
Theorem parse_short_buffer f (st : parse_state) :
  (r_remaining (buf st) < 16)%nat ->
  let r := plc4c_modbus_read_write_modbus_constants_parse f st in
  fst r <> OUT_OF_BOUNDS
  /\ buf (snd r) = buf st
  /\ read_unsigned (buf st) 16 = inl OutOfBounds
  /\ fst r =
     if ptr_eqb (fst (malloc (mem st))) NULL then NO_MEMORY
     else if uint16 (f (buf st) 16%nat)
             =? MODBUS_READ_WRITE_MODBUS_CONSTANTS_MODBUS_TCP_DEFAULT_PORT
          then OK else PARSE_ERROR.
Proof.
  intros Hshort r. subst r.
  pose proof (read_unsigned_out_of_bounds _ _ Hshort) as Hread.
  rewrite parse_paths, Hread.
  unfold MODBUS_READ_WRITE_MODBUS_CONSTANTS_MODBUS_TCP_DEFAULT_PORT.
  destruct (malloc (mem st)) as [[|a] h]; cbn [fst snd buf ptr_eqb].
  - repeat split. discriminate.
  - destruct (uint16 (f (buf st) 16%nat) =? 502);
      repeat split; discriminate.
Qed.

Lemma parse_short_buffer_witness :
  fst (plc4c_modbus_read_write_modbus_constants_parse read_zero st_short)
  <> OUT_OF_BOUNDS
  /\ buf (snd (plc4c_modbus_read_write_modbus_constants_parse
                 read_zero st_short))
     = buf st_short.
Proof.
  assert (Hshort : (r_remaining (buf st_short) < 16)%nat)
    by (vm_compute; lia).
  destruct (parse_short_buffer read_zero st_short Hshort) as (H1 & H2 & _ & _).
  split; [exact H1 | exact H2].
Defined.

(** C7, as stated, fails: on a one-byte region the 16-bit read fails and
    consumes nothing; with a reader that hands back 502 from the failed
    read the parser returns [OK] all the same, and the cursor is where it
    was, not 16 bits further. *)
Lemma parse_ok_without_advance :
  (r_remaining (buf st_short) < 16)%nat
  /\ fst (plc4c_modbus_read_write_modbus_constants_parse read_502 st_short)
     = OK
  /\ r_pos (buf (snd (plc4c_modbus_read_write_modbus_constants_parse
                        read_502 st_short)))
     = r_pos (buf st_short)
  /\ r_pos (buf (snd (plc4c_modbus_read_write_modbus_constants_parse
                        read_502 st_short)))
     <> (r_pos (buf st_short) + 16)%nat.
Proof.
  split; [vm_compute; lia|].
  split; [reflexivity|]. split; [reflexivity|].
  vm_compute. discriminate.
Qed.

(** C7, amended -- cursor advance on success. For every read buffer on
    which the parser returns [OK], unless fewer than 16 bits were left and
    the failed read handed back an integer that the [uint16_t] local holds
    as the constant, the cursor stands exactly 16 bits past where it stood
    before the call and the bytes are as they were. *)
Theorem parse_ok_advances f (st : parse_state) :
  ((r_remaining (buf st) < 16)%nat ->
   uint16 (f (buf st) 16%nat)
   <> MODBUS_READ_WRITE_MODBUS_CONSTANTS_MODBUS_TCP_DEFAULT_PORT) ->
  fst (plc4c_modbus_read_write_modbus_constants_parse f st) = OK ->
  r_pos (buf (snd (plc4c_modbus_read_write_modbus_constants_parse f st)))
  = (r_pos (buf st) + 16)%nat
  /\ r_data (buf (snd (plc4c_modbus_read_write_modbus_constants_parse f st)))
     = r_data (buf st).
Proof.
  intros Hfail. rewrite parse_paths.
  destruct (malloc (mem st)) as [[|a] h]; cbn [fst snd]; [discriminate|].
  destruct (Nat.lt_ge_cases (r_remaining (buf st)) 16) as [Hshort|Hroom].
  - rewrite read_unsigned_out_of_bounds by assumption. cbn [fst snd].
    specialize (Hfail Hshort).
    unfold MODBUS_READ_WRITE_MODBUS_CONSTANTS_MODBUS_TCP_DEFAULT_PORT in Hfail.
    destruct (Z.eqb_spec (uint16 (f (buf st) 16%nat)) 502);
      [contradiction | discriminate].
  - rewrite read_unsigned_in_bounds by (try assumption; lia).
    cbn [fst snd buf r_pos r_data]. intros _. split; reflexivity.
Qed.

Lemma parse_ok_advances_witness :
  r_pos (buf (snd (plc4c_modbus_read_write_modbus_constants_parse read_zero
                     (mk_parse_state (mk_read_buffer [xff; x01; xf6] 8)
                        (mk_heap [] 1) NULL))))
  = 24%nat.
Proof.
  refine (proj1 (parse_ok_advances read_zero
                   (mk_parse_state (mk_read_buffer [xff; x01; xf6] 8)
                      (mk_heap [] 1) NULL) _ _)).
  - intros _. vm_compute. discriminate.
  - reflexivity.
Defined.

(** C1, as stated, fails: with room in the write buffer the serializer
    succeeds, yet parsing the two bytes it wrote returns [NO_MEMORY], not
    [OK], when the allocator is exhausted. *)
Lemma roundtrip_no_memory :
  (16 <= w_remaining (mk_write_buffer [x00; x00] 0))%nat
  /\ plc4c_modbus_read_write_modbus_constants_serialize
       (mk_write_buffer [x00; x00] 0) NULL
     = (OK, mk_write_buffer [x01; xf6] 16)
  /\ fst (plc4c_modbus_read_write_modbus_constants_parse read_zero
            (mk_parse_state (mk_read_buffer [x01; xf6] 0)
               heap_exhausted NULL))
     = NO_MEMORY
  /\ fst (plc4c_modbus_read_write_modbus_constants_parse read_zero
            (mk_parse_state (mk_read_buffer [x01; xf6] 0)
               heap_exhausted NULL))
     <> OK.
Proof.
  split; [vm_compute; lia|]. repeat split. discriminate.
Qed.

(** C1, amended -- round trip. For every message [m], every message
    pointer and every write buffer with at least 16 bits of room,
    serializing and then parsing the written bytes from where the writer
    started returns [OK] whenever the allocation of the output message
    succeeds; the caller's slot then designates a message equal to [m]
    (the message has no slots), and the read cursor has advanced by the 16
    bits the serializer wrote. *)
Theorem serialize_parse_roundtrip f
  (m : plc4c_modbus_read_write_modbus_constants) (pm slot : ptr)
  (wb : plc4c_spi_write_buffer) (h : heap) :
  (16 <= w_remaining wb)%nat ->
  fst (malloc h) <> NULL ->
  let w := plc4c_modbus_read_write_modbus_constants_serialize wb pm in
  let r := plc4c_modbus_read_write_modbus_constants_parse f
             (mk_parse_state (read_back (snd w) (w_pos wb)) h slot) in
  fst w = OK
  /\ w_pos (snd w) = (w_pos wb + 16)%nat
  /\ fst r = OK
  /\ deref (mem (snd r)) (_message (snd r)) = Some m
  /\ r_pos (buf (snd r)) = (w_pos wb + 16)%nat.
Proof.
  intros Hroom Halloc w r. subst w r.
  rewrite serialize_in_bounds by assumption.
  cbn [fst snd w_pos read_back w_data].
  assert (Hfit : (w_pos wb + length (Bits.of_Z 16 502)
                  <= 8 * length (w_data wb))%nat)
    by (rewrite of_Z_length; apply room_fits; [assumption | lia]).
  rewrite parse_paths. unfold read_back. cbn [mem buf _message w_data].
  unfold malloc in *. destruct (avail h) as [|n]; [now elim Halloc|].
  rewrite read_unsigned_in_bounds; cbn [r_data r_pos].
  - pose proof (bits_at_put_bits _ _ _ Hfit) as Hrun.
    rewrite of_Z_length in Hrun. rewrite Hrun.
    change (uint16 (Bits.to_Z (Bits.of_Z 16 502)) =? 502) with true.
    cbn [fst snd mem _message buf r_pos].
    repeat split.
    destruct m. unfold deref, is_live. cbn [live existsb].
    rewrite Pos.eqb_refl. reflexivity.
  - unfold r_remaining, r_capacity. cbn [r_data r_pos].
    rewrite put_bits_length by exact Hfit.
    rewrite of_Z_length in Hfit. lia.
  - lia.
Qed.

Lemma serialize_parse_roundtrip_witness :
  fst (plc4c_modbus_read_write_modbus_constants_parse read_zero
         (mk_parse_state
            (read_back
               (snd (plc4c_modbus_read_write_modbus_constants_serialize
                       (mk_write_buffer [xaa; xbb; xcc; xdd] 12) NULL))
               12)
            (mk_heap [1%positive] 3) NULL))
  = OK.
Proof.
  assert (Hroom : (16 <= w_remaining
                           (mk_write_buffer [xaa; xbb; xcc; xdd] 12))%nat)
    by (vm_compute; lia).
  assert (Halloc : fst (malloc (mk_heap [1%positive] 3)) <> NULL)
    by (vm_compute; discriminate).
  destruct (serialize_parse_roundtrip read_zero mk_modbus_constants
              NULL NULL _ _ Hroom Halloc) as (_ & _ & Hok & _).
  exact Hok.
Defined.

(** * Further properties of the parser, the serializer and the lengths *)

(** ** More on bits *)

Lemma of_Z_ext n : forall v v',
  (forall i, 0 <= i < Z.of_nat n -> Z.testbit v i = Z.testbit v' i) ->
  Bits.of_Z n v = Bits.of_Z n v'.
Proof.
  induction n as [|n IH]; intros v v' H; [reflexivity|].
  cbn [Bits.of_Z]. f_equal.
  - apply H. lia.
  - apply IH. intros i Hi. apply H. lia.
Qed.

Lemma to_Z_cons b l :
  Bits.to_Z (b :: l) = Z.b2z b * 2 ^ Z.of_nat (length l) + Bits.to_Z l.
Proof.
  unfold Bits.to_Z at 1. cbn [fold_left].
  destruct (to_Z_split l (2 * 0 + Z.b2z b)) as [E _]. rewrite E. lia.
Qed.

Lemma testbit_top b n x :
  0 <= n -> 0 <= x < 2 ^ n -> Z.testbit (Z.b2z b * 2 ^ n + x) n = b.
Proof.
  intros Hn Hx.
  assert (E : Z.b2z (Z.testbit (Z.b2z b * 2 ^ n + x) n) = Z.b2z b).
  { rewrite Z.testbit_spec' by assumption.
    rewrite Z.div_add_l by lia. rewrite (Z.div_small x) by assumption.
    destruct b; reflexivity. }
  destruct b, (Z.testbit (Z.b2z true * 2 ^ n + x) n),
    (Z.testbit (Z.b2z false * 2 ^ n + x) n); cbn in E; congruence.
Qed.

Lemma testbit_below b n x i :
  0 <= i < n -> 0 <= x < 2 ^ n ->
  Z.testbit (Z.b2z b * 2 ^ n + x) i = Z.testbit x i.
Proof.
  intros Hi Hx.
  rewrite <- (Z.mod_pow2_bits_low (Z.b2z b * 2 ^ n + x) n i) by lia.
  rewrite Z.add_comm, Z.mod_add by lia.
  rewrite Z.mod_small by assumption. reflexivity.
Qed.

(** A run of bits is recovered from its value and its length. *)
Lemma of_Z_to_Z l : Bits.of_Z (length l) (Bits.to_Z l) = l.
Proof.
  induction l as [|b l IH]; [reflexivity|].
  cbn [length Bits.of_Z]. rewrite to_Z_cons.
  pose proof (to_Z_range l) as R.
  f_equal.
  - apply testbit_top; [lia | exact R].
  - transitivity (Bits.of_Z (length l) (Bits.to_Z l)); [|exact IH].
    apply of_Z_ext. intros i Hi.
    apply testbit_below; [lia | exact R].
Qed.

(** Sixteen bits spell the constant exactly when their value is 502. *)
Lemma pattern_iff_value l :
  length l = 16%nat -> (Bits.to_Z l = 502 <-> l = Bits.of_Z 16 502).
Proof.
  intros Hl. split.
  - intros E. rewrite <- (of_Z_to_Z l), Hl, E. reflexivity.
  - intros ->. reflexivity.
Qed.

(** The bits of a field depend on the bits up to its end only. *)
Lemma bits_at_prefix d d' pos width :
  firstn (pos + width) (Bits.of_bytes d)
  = firstn (pos + width) (Bits.of_bytes d') ->
  bits_at d pos width = bits_at d' pos width.
Proof.
  intros H. unfold bits_at. rewrite !firstn_skipn_comm, H. reflexivity.
Qed.

(** ** The parser and the allocator *)

(** What a call that gets past the allocation leaves in the heap and in
    the caller's slot. *)
Lemma parse_block f st :
  fst (plc4c_modbus_read_write_modbus_constants_parse f st) <> NO_MEMORY ->
  _message (snd (plc4c_modbus_read_write_modbus_constants_parse f st))
  = Addr (fresh (live (mem st)))
  /\ live (mem (snd (plc4c_modbus_read_write_modbus_constants_parse f st)))
     = fresh (live (mem st)) :: live (mem st).
Proof.
  rewrite parse_paths. unfold malloc.
  destruct (avail (mem st)) as [|n]; cbn [fst snd]; [congruence|].
  intros _.
  destruct (read_unsigned (buf st) 16) as [e|[v b]]; cbn [fst snd];
    split; reflexivity.
Qed.

Lemma is_live_In h a : is_live h (Addr a) = true <-> In a (live h).
Proof.
  cbn [is_live]. rewrite existsb_exists. split.
  - intros (x & Hin & Hx). apply Pos.eqb_eq in Hx. now subst x.
  - intros Hin. exists a. split; [assumption | apply Pos.eqb_refl].
Qed.

(** X1 -- the codes the parser returns. Whatever the reader does and
    whatever state the call starts in, the parser returns [OK],
    [NO_MEMORY] or [PARSE_ERROR] and no other code. *)
Theorem parse_return_codes f (st : parse_state) :
  fst (plc4c_modbus_read_write_modbus_constants_parse f st) = OK
  \/ fst (plc4c_modbus_read_write_modbus_constants_parse f st) = NO_MEMORY
  \/ fst (plc4c_modbus_read_write_modbus_constants_parse f st) = PARSE_ERROR.
Proof.
  rewrite parse_paths.
  destruct (malloc (mem st)) as [[|a] h]; cbn [fst]; [tauto|].
  destruct (read_unsigned (buf st) 16) as [e|[v b]]; cbn [fst];
    match goal with |- context [if ?c then _ else _] => destruct c end;
    tauto.
Qed.

(** X2 -- the slot after a failed allocation. When the parser returns
    [NO_MEMORY] the caller's slot has been overwritten with [NULL],
    whatever it held before, and the heap and the read buffer are as they
    were. *)
Theorem parse_no_memory_clears_slot f (st : parse_state) :
  fst (plc4c_modbus_read_write_modbus_constants_parse f st) = NO_MEMORY ->
  snd (plc4c_modbus_read_write_modbus_constants_parse f st)
  = mk_parse_state (buf st) (mem st) NULL.
Proof.
  rewrite parse_paths. unfold malloc.
  destruct (avail (mem st)) as [|n]; cbn [fst snd]; [reflexivity|].
  destruct (read_unsigned (buf st) 16) as [e|[v b]]; cbn [fst snd];
    match goal with |- context [if ?c then _ else _] => destruct c end;
    discriminate.
Qed.

Lemma parse_no_memory_clears_slot_witness :
  snd (plc4c_modbus_read_write_modbus_constants_parse read_zero
         (mk_parse_state (mk_read_buffer [x01; xf6] 0)
            (mk_heap [9%positive] 0) (Addr 9)))
  = mk_parse_state (mk_read_buffer [x01; xf6] 0) (mk_heap [9%positive] 0) NULL.
Proof.
  apply (parse_no_memory_clears_slot read_zero
           (mk_parse_state (mk_read_buffer [x01; xf6] 0)
              (mk_heap [9%positive] 0) (Addr 9))).
  reflexivity.
Defined.

(** X3 -- one block per call, none freed. Every call that does not
    return [NO_MEMORY], whether it ends in [OK] or in [PARSE_ERROR],
    leaves in the caller's slot the address of a block that was not live
    before; the live blocks after the call are that block and all the
    blocks that were live before. *)
Theorem parse_allocates_one_block f (st : parse_state) :
  fst (plc4c_modbus_read_write_modbus_constants_parse f st) <> NO_MEMORY ->
  exists a,
    _message (snd (plc4c_modbus_read_write_modbus_constants_parse f st))
    = Addr a
    /\ ~ In a (live (mem st))
    /\ live (mem (snd (plc4c_modbus_read_write_modbus_constants_parse f st)))
       = a :: live (mem st)
    /\ (forall p, is_live (mem st) p = true ->
          is_live
            (mem (snd (plc4c_modbus_read_write_modbus_constants_parse f st)))
            p = true).
Proof.
  intros H. destruct (parse_block f st H) as [Hslot Hlive].
  exists (fresh (live (mem st))). repeat split.
  - exact Hslot.
  - apply fresh_not_live.
  - exact Hlive.
  - intros [|p] Hp; [discriminate|].
    apply is_live_In. rewrite Hlive. right. apply is_live_In. exact Hp.
Qed.

Lemma parse_allocates_one_block_witness :
  exists a,
    _message (snd (plc4c_modbus_read_write_modbus_constants_parse read_zero
                     (mk_parse_state (mk_read_buffer [x01; xf6] 0)
                        (mk_heap [2%positive; 7%positive] 1) NULL)))
    = Addr a
    /\ ~ In a [2%positive; 7%positive].
Proof.
  destruct (parse_allocates_one_block read_zero
              (mk_parse_state (mk_read_buffer [x01; xf6] 0)
                 (mk_heap [2%positive; 7%positive] 1) NULL))
    as (a & Ha & Hfresh & _).
  - vm_compute. discriminate.
  - exists a. split; [exact Ha | exact Hfresh].
Defined.

(** X4 -- the out-parameter is write-only. The return code, the read
    buffer, the heap and the slot after the call do not depend on what
    the caller's slot held before the call. *)
Theorem parse_ignores_slot f (b : plc4c_spi_read_buffer) (h : heap)
  (s1 s2 : ptr) :
  plc4c_modbus_read_write_modbus_constants_parse f (mk_parse_state b h s1)
  = plc4c_modbus_read_write_modbus_constants_parse f (mk_parse_state b h s2).
Proof.
  rewrite !parse_paths. cbn [buf mem]. reflexivity.
Qed.

(** X5 -- parsing twice into the same slot. When two calls in a row,
    the second starting in the state the first one left, both get past
    the allocation, the slot ends up holding a different address from the
    one the first call stored, and the block of the first call is still
    live: the second call has overwritten the only pointer the slot held
    to it without freeing it. *)
Theorem parse_twice_keeps_first_block f (st : parse_state) :
  let r1 := plc4c_modbus_read_write_modbus_constants_parse f st in
  let r2 := plc4c_modbus_read_write_modbus_constants_parse f (snd r1) in
  fst r1 <> NO_MEMORY -> fst r2 <> NO_MEMORY ->
  _message (snd r2) <> _message (snd r1)
  /\ is_live (mem (snd r2)) (_message (snd r1)) = true
  /\ is_live (mem (snd r2)) (_message (snd r2)) = true.
Proof.
  intros r1 r2 H1 H2. subst r1 r2.
  destruct (parse_block f st H1) as [S1 L1].
  destruct (parse_block f _ H2) as [S2 L2].
  rewrite S1, S2. repeat split.
  - intros E. injection E as E.
    apply (fresh_not_live
             (live (mem (snd (plc4c_modbus_read_write_modbus_constants_parse
                                f st))))).
    rewrite E. rewrite L1. left. reflexivity.
  - apply is_live_In. rewrite L2, L1. right. left. reflexivity.
  - apply is_live_In. rewrite L2. left. reflexivity.
Qed.

Lemma parse_twice_keeps_first_block_witness :
  _message
    (snd (plc4c_modbus_read_write_modbus_constants_parse read_zero
            (snd (plc4c_modbus_read_write_modbus_constants_parse read_zero
                    (mk_parse_state (mk_read_buffer [x01; xf6; x00; x00] 0)
                       (mk_heap [] 2) NULL)))))
  <> _message
       (snd (plc4c_modbus_read_write_modbus_constants_parse read_zero
               (mk_parse_state (mk_read_buffer [x01; xf6; x00; x00] 0)
                  (mk_heap [] 2) NULL))).
Proof.
  refine (proj1 (parse_twice_keeps_first_block read_zero
                   (mk_parse_state (mk_read_buffer [x01; xf6; x00; x00] 0)
                      (mk_heap [] 2) NULL) _ _)).
  - vm_compute. discriminate.
  - vm_compute. discriminate.
Defined.

(** ** The parser and the bits it reads *)

(** The parser on a buffer that holds the whole field. *)
Lemma parse_in_bounds f st :
  (16 <= r_remaining (buf st))%nat ->
  plc4c_modbus_read_write_modbus_constants_parse f st =
  match malloc (mem st) with
  | (NULL, h) => (NO_MEMORY, mk_parse_state (buf st) h NULL)
  | (Addr a, h) =>
      (if Bits.to_Z (bits_at (r_data (buf st)) (r_pos (buf st)) 16) =? 502
       then OK else PARSE_ERROR,
       mk_parse_state
         (mk_read_buffer (r_data (buf st)) (r_pos (buf st) + 16)) h (Addr a))
  end.
Proof.
  intros Hroom. rewrite parse_paths.
  destruct (malloc (mem st)) as [[|a] h]; [reflexivity|].
  rewrite read_unsigned_in_bounds by (try assumption; lia).
  rewrite uint16_bits_at by (unfold r_remaining, r_capacity in Hroom; lia).
  reflexivity.
Qed.

Lemma r_room_fits (b : plc4c_spi_read_buffer) (w : nat) :
  (w <= r_remaining b)%nat -> (0 < w)%nat ->
  (r_pos b + w <= 8 * length (r_data b))%nat.
Proof. unfold r_remaining, r_capacity. lia. Qed.

(** X6 -- what the parser accepts. On a read buffer with at least 16
    bits left the parser returns [OK] exactly when the allocation succeeds
    and the next 16 bits are the big-endian pattern of the constant 502;
    no other bit of the buffer and nothing in the caller's slot has a say. *)
Theorem parse_ok_iff_pattern f (st : parse_state) :
  (16 <= r_remaining (buf st))%nat ->
  (fst (plc4c_modbus_read_write_modbus_constants_parse f st) = OK
   <-> fst (malloc (mem st)) <> NULL
       /\ bits_at (r_data (buf st)) (r_pos (buf st)) 16
          = Bits.of_Z 16
              MODBUS_READ_WRITE_MODBUS_CONSTANTS_MODBUS_TCP_DEFAULT_PORT).
Proof.
  intros Hroom. rewrite parse_in_bounds by assumption.
  unfold MODBUS_READ_WRITE_MODBUS_CONSTANTS_MODBUS_TCP_DEFAULT_PORT.
  pose proof (pattern_iff_value
                (bits_at (r_data (buf st)) (r_pos (buf st)) 16)
                (bits_at_length _ _ _ (r_room_fits _ _ Hroom ltac:(lia))))
    as Hpat.
  destruct (malloc (mem st)) as [[|a] h]; cbn [fst].
  - split; [discriminate | intros [H _]; now elim H].
  - destruct (Z.eqb_spec
                (Bits.to_Z (bits_at (r_data (buf st)) (r_pos (buf st)) 16))
                502) as [E|N].
    + split; [|reflexivity]. intros _. split; [discriminate|].
      apply Hpat. exact E.
    + split; [discriminate|]. intros [_ H]. apply Hpat in H. contradiction.
Qed.

Lemma parse_ok_iff_pattern_witness :
  fst (plc4c_modbus_read_write_modbus_constants_parse read_zero
         (mk_parse_state (mk_read_buffer [x00; x1f; x60] 4)
            (mk_heap [] 1) NULL))
  = OK.
Proof.
  apply (parse_ok_iff_pattern read_zero
           (mk_parse_state (mk_read_buffer [x00; x1f; x60] 4)
              (mk_heap [] 1) NULL)).
  - vm_compute. lia.
  - split; [vm_compute; discriminate | reflexivity].
Defined.

(** X7 -- what the parser accepts, in bytes. With the cursor on a byte
    boundary, at least two bytes left and an allocation that succeeds, the
    parser returns [OK] when the next two bytes are 0x01 0xF6 and
    [PARSE_ERROR] for any other two bytes. *)
Theorem parse_ok_iff_bytes f (st : parse_state) (k : nat) :
  r_pos (buf st) = (8 * k)%nat ->
  (16 <= r_remaining (buf st))%nat ->
  fst (malloc (mem st)) <> NULL ->
  (fst (plc4c_modbus_read_write_modbus_constants_parse f st) = OK
   <-> firstn 2 (skipn k (r_data (buf st))) = [x01; xf6])
  /\ (fst (plc4c_modbus_read_write_modbus_constants_parse f st) = PARSE_ERROR
      <-> firstn 2 (skipn k (r_data (buf st))) <> [x01; xf6]).
Proof.
  intros Hk Hroom Halloc. rewrite parse_in_bounds by assumption.
  pose proof (pattern_iff_value
                (bits_at (r_data (buf st)) (r_pos (buf st)) 16)
                (bits_at_length _ _ _ (r_room_fits _ _ Hroom ltac:(lia))))
    as Hpat.
  assert (Hbytes : bits_at (r_data (buf st)) (r_pos (buf st)) 16
                   = Bits.of_Z 16 502
                   <-> firstn 2 (skipn k (r_data (buf st))) = [x01; xf6]).
  { rewrite Hk. change 16%nat with (8 * 2)%nat at 1.
    rewrite bits_at_bytes. split.
    - intros E. apply (f_equal Bits.to_bytes) in E.
      rewrite to_bytes_of_bytes in E. exact E.
    - intros ->. reflexivity. }
  destruct (malloc (mem st)) as [[|a] h]; [now elim Halloc|]. cbn [fst].
  destruct (Z.eqb_spec
              (Bits.to_Z (bits_at (r_data (buf st)) (r_pos (buf st)) 16))
              502) as [E|N].
  - assert (B : firstn 2 (skipn k (r_data (buf st))) = [x01; xf6])
      by (apply Hbytes, Hpat, E).
    split; split; try tauto; try discriminate.
  - assert (B : firstn 2 (skipn k (r_data (buf st))) <> [x01; xf6])
      by (intros B; apply N, Hpat, Hbytes, B).
    split; split; try tauto; try discriminate.
Qed.

Lemma parse_ok_iff_bytes_witness :
  fst (plc4c_modbus_read_write_modbus_constants_parse read_zero
         (mk_parse_state (mk_read_buffer [xf6; x01; xf6; x01] 16)
            (mk_heap [] 1) NULL))
  = PARSE_ERROR.
Proof.
  apply (parse_ok_iff_bytes read_zero
           (mk_parse_state (mk_read_buffer [xf6; x01; xf6; x01] 16)
              (mk_heap [] 1) NULL) 2).
  - reflexivity.
  - vm_compute. lia.
  - vm_compute. discriminate.
  - vm_compute. discriminate.
Defined.

(** X8 -- where the cursor ends up. The parser never changes a byte of
    the read buffer. It moves the cursor on by 16 bits when the allocation
    succeeds and at least 16 bits are left, whether or not those bits
    match the constant, and leaves the cursor where it was in every other
    case. *)
Theorem parse_cursor f (st : parse_state) :
  r_data (buf (snd (plc4c_modbus_read_write_modbus_constants_parse f st)))
  = r_data (buf st)
  /\ r_pos (buf (snd (plc4c_modbus_read_write_modbus_constants_parse f st)))
     = if negb (ptr_eqb (fst (malloc (mem st))) NULL)
          && (16 <=? r_remaining (buf st))%nat
       then (r_pos (buf st) + 16)%nat
       else r_pos (buf st).
Proof.
  destruct (Nat.leb_spec 16 (r_remaining (buf st))) as [Hroom|Hshort].
  - rewrite parse_in_bounds by assumption.
    destruct (malloc (mem st)) as [[|a] h]; cbn; split; reflexivity.
  - rewrite parse_paths, read_unsigned_out_of_bounds by assumption.
    destruct (malloc (mem st)) as [[|a] h]; cbn; split; reflexivity.
Qed.

(** ** The serializer, the lengths and the parser together *)

Lemma serialize_field wb pm :
  (16 <= w_remaining wb)%nat ->
  bits_at (w_data (snd (plc4c_modbus_read_write_modbus_constants_serialize
                          wb pm))) (w_pos wb) 16
  = Bits.of_Z 16 502.
Proof.
  intros Hroom. rewrite serialize_in_bounds by assumption. cbn [snd w_data].
  apply (bits_at_put_bits (w_data wb) (w_pos wb) (Bits.of_Z 16 502)).
  rewrite of_Z_length. apply room_fits; [assumption | lia].
Qed.

(** X9 -- serializing what was parsed. When the parser returns [OK] on
    a read buffer that held the whole field, serializing into any write
    buffer with at least 16 bits of room writes, at its cursor, exactly the
    16 bits the parser consumed. *)
Theorem reserialize_reproduces_bits f (st : parse_state)
  (wb : plc4c_spi_write_buffer) (pm : ptr) :
  (16 <= r_remaining (buf st))%nat ->
  fst (plc4c_modbus_read_write_modbus_constants_parse f st) = OK ->
  (16 <= w_remaining wb)%nat ->
  bits_at (w_data (snd (plc4c_modbus_read_write_modbus_constants_serialize
                          wb pm))) (w_pos wb) 16
  = bits_at (r_data (buf st)) (r_pos (buf st)) 16.
Proof.
  intros Hr Hok Hw. rewrite serialize_field by assumption.
  rewrite parse_in_bounds in Hok by assumption.
  destruct (malloc (mem st)) as [[|a] h]; cbn [fst] in Hok; [discriminate|].
  destruct (Z.eqb_spec
              (Bits.to_Z (bits_at (r_data (buf st)) (r_pos (buf st)) 16))
              502) as [E|_]; [|discriminate].
  symmetry. apply pattern_iff_value; [|exact E].
  apply bits_at_length, r_room_fits; [assumption | lia].
Qed.

Lemma reserialize_reproduces_bits_witness :
  bits_at (w_data (snd (plc4c_modbus_read_write_modbus_constants_serialize
                          (mk_write_buffer [xff; xff; xff] 3) NULL))) 3 16
  = bits_at [x00; x01; xf6] 8 16.
Proof.
  apply (reserialize_reproduces_bits read_zero
           (mk_parse_state (mk_read_buffer [x00; x01; xf6] 8)
              (mk_heap [] 1) NULL)
           (mk_write_buffer [xff; xff; xff] 3) NULL).
  - vm_compute. lia.
  - reflexivity.
  - vm_compute. lia.
Defined.

(** X10 -- a buffer sized by the length in bytes. A write buffer of
    exactly [length_in_bytes] bytes with the cursor at its start is
    overwritten whole: whatever it held, after the serializer it holds the
    bytes 0x01 0xF6 and is full. *)
Theorem serialize_fills_sized_buffer (d : list byte) (pm : ptr) :
  Z.of_nat (length d)
  = plc4c_modbus_read_write_modbus_constants_length_in_bytes pm ->
  plc4c_modbus_read_write_modbus_constants_serialize (mk_write_buffer d 0) pm
  = (OK, mk_write_buffer [x01; xf6] 16)
  /\ w_remaining
       (snd (plc4c_modbus_read_write_modbus_constants_serialize
               (mk_write_buffer d 0) pm)) = 0%nat.
Proof.
  intros Hlen.
  assert (Hd : length d = 2%nat).
  { change (plc4c_modbus_read_write_modbus_constants_length_in_bytes pm)
      with 2 in Hlen. lia. }
  assert (E : plc4c_modbus_read_write_modbus_constants_serialize
                (mk_write_buffer d 0) pm
              = (OK, mk_write_buffer [x01; xf6] 16)).
  { rewrite serialize_in_bounds
      by (unfold w_remaining, w_capacity; cbn [w_data w_pos]; lia).
    cbn [w_data w_pos]. unfold put_bits.
    rewrite skipn_all2
      by (rewrite of_bytes_length, of_Z_length; lia).
    reflexivity. }
  rewrite E. split; reflexivity.
Qed.

Lemma serialize_fills_sized_buffer_witness :
  plc4c_modbus_read_write_modbus_constants_serialize
    (mk_write_buffer [xde; xad] 0) (Addr 1)
  = (OK, mk_write_buffer [x01; xf6] 16).
Proof.
  apply (serialize_fills_sized_buffer [xde; xad] (Addr 1)).
  reflexivity.
Defined.

(** X11 -- what the serializer keeps. For every write buffer the
    serializer keeps the size of the region and never moves the cursor
    back: the cursor moves on by [length_in_bits] bits when at least 16
    bits of room are left and stays where it was otherwise; a cursor that
    was within the capacity is still within it afterwards. *)
Theorem serialize_keeps_shape (wb : plc4c_spi_write_buffer) (pm : ptr) :
  let wb' := snd (plc4c_modbus_read_write_modbus_constants_serialize wb pm) in
  length (w_data wb') = length (w_data wb)
  /\ Z.of_nat (w_pos wb')
     = Z.of_nat (w_pos wb)
       + (if (16 <=? w_remaining wb)%nat
          then plc4c_modbus_read_write_modbus_constants_length_in_bits pm
          else 0)
  /\ ((w_pos wb <= w_capacity wb)%nat -> (w_pos wb' <= w_capacity wb')%nat).
Proof.
  intros wb'. subst wb'.
  destruct (Nat.leb_spec 16 (w_remaining wb)) as [Hroom|Hshort].
  - rewrite serialize_in_bounds by assumption. cbn [snd w_data w_pos].
    assert (Hlen : length (put_bits (w_data wb) (w_pos wb)
                             (Bits.of_Z 16 502))
                   = length (w_data wb)).
    { apply put_bits_length. rewrite of_Z_length.
      apply room_fits; [assumption | lia]. }
    unfold w_remaining, w_capacity in *. cbn [w_data w_pos].
    rewrite Hlen.
    change (plc4c_modbus_read_write_modbus_constants_length_in_bits pm)
      with 16.
    repeat split; lia.
  - assert (E : plc4c_modbus_read_write_modbus_constants_serialize wb pm
                = (OK, wb)).
    { unfold plc4c_modbus_read_write_modbus_constants_serialize,
        plc4c_spi_write_unsigned_int.
      rewrite write_unsigned_out_of_bounds;
        [reflexivity | assumption |].
      unfold MODBUS_READ_WRITE_MODBUS_CONSTANTS_MODBUS_TCP_DEFAULT_PORT.
      cbn. lia. }
    rewrite E. cbn [snd]. repeat split; [lia | tauto].
Qed.

Lemma serialize_keeps_shape_witness :
  (w_pos (snd (plc4c_modbus_read_write_modbus_constants_serialize
                 (mk_write_buffer [x00; x00; x00] 5) NULL))
   <= w_capacity (snd (plc4c_modbus_read_write_modbus_constants_serialize
                         (mk_write_buffer [x00; x00; x00] 5) NULL)))%nat.
Proof.
  destruct (serialize_keeps_shape (mk_write_buffer [x00; x00; x00] 5) NULL)
    as (_ & _ & H).
  apply H. vm_compute. lia.
Defined.

(** X12 -- two messages back to back. With room for 32 bits and an
    allocator that can hand out two blocks, serializing twice and then
    parsing twice from where the writer started returns [OK] four times:
    the second write leaves the first field intact, the second parse
    starts where the first one stopped, and the reader ends exactly where
    the writer ended. *)
Theorem two_messages_roundtrip f (pm1 pm2 slot : ptr)
  (wb : plc4c_spi_write_buffer) (h : heap) :
  (32 <= w_remaining wb)%nat ->
  (2 <= avail h)%nat ->
  let w1 := plc4c_modbus_read_write_modbus_constants_serialize wb pm1 in
  let w2 := plc4c_modbus_read_write_modbus_constants_serialize (snd w1) pm2 in
  let r1 := plc4c_modbus_read_write_modbus_constants_parse f
              (mk_parse_state (read_back (snd w2) (w_pos wb)) h slot) in
  let r2 := plc4c_modbus_read_write_modbus_constants_parse f (snd r1) in
  fst w1 = OK /\ fst w2 = OK /\ fst r1 = OK /\ fst r2 = OK
  /\ r_pos (buf (snd r2)) = w_pos (snd w2)
  /\ r_pos (buf (snd r2)) = (w_pos wb + 32)%nat.
Proof.
  intros Hroom Havail w1 w2 r1 r2. subst w1 w2 r1 r2.
  assert (Hroom1 : (16 <= w_remaining wb)%nat) by lia.
  assert (Hfit1 : (w_pos wb + length (Bits.of_Z 16 502)
                   <= 8 * length (w_data wb))%nat)
    by (rewrite of_Z_length; apply room_fits; [assumption | lia]).
  rewrite (serialize_in_bounds wb) by assumption. cbn [fst snd].
  pose proof (put_bits_length _ _ _ Hfit1) as Hlen1.
  pose proof (bits_at_put_bits _ _ _ Hfit1) as Hrun1.
  rewrite of_Z_length in Hrun1.
  set (d1 := put_bits (w_data wb) (w_pos wb) (Bits.of_Z 16 502)) in *.
  assert (Hfit2 : (w_pos wb + 16 + length (Bits.of_Z 16 502)
                   <= 8 * length d1)%nat).
  { rewrite of_Z_length, Hlen1.
    unfold w_remaining, w_capacity in Hroom. lia. }
  rewrite serialize_in_bounds
    by (unfold w_remaining, w_capacity; cbn [w_data w_pos];
        rewrite of_Z_length in Hfit2; lia).
  cbn [fst snd w_data w_pos]. unfold read_back. cbn [w_data w_pos].
  pose proof (put_bits_length _ _ _ Hfit2) as Hlen2.
  pose proof (bits_at_put_bits _ _ _ Hfit2) as Hrun2.
  pose proof (put_bits_before _ _ _ Hfit2) as Hkeep.
  rewrite of_Z_length in Hrun2.
  set (d2 := put_bits d1 (w_pos wb + 16) (Bits.of_Z 16 502)) in *.
  assert (Hfield1 : bits_at d2 (w_pos wb) 16 = Bits.of_Z 16 502)
    by (rewrite (bits_at_prefix d2 d1) by exact Hkeep; exact Hrun1).
  rewrite of_Z_length in Hfit2.
  (* first parse *)
  rewrite (parse_in_bounds f (mk_parse_state (mk_read_buffer d2 (w_pos wb))
                                h slot))
    by (unfold r_remaining, r_capacity; cbn [buf r_data r_pos]; lia).
  cbn [buf mem r_data r_pos]. rewrite Hfield1.
  destruct (avail h) as [|[|n]] eqn:Ea; [lia | lia |].
  unfold malloc. rewrite Ea.
  change (Bits.to_Z (Bits.of_Z 16 502) =? 502) with true.
  cbn [fst snd].
  (* second parse *)
  rewrite parse_in_bounds
    by (unfold r_remaining, r_capacity; cbn [buf r_data r_pos]; lia).
  unfold malloc.
  cbn [buf mem r_data r_pos avail live fst snd]. rewrite Hrun2.
  change (Bits.to_Z (Bits.of_Z 16 502) =? 502) with true.
  cbn [fst snd buf r_pos].
  repeat split; lia.
Qed.

Lemma two_messages_roundtrip_witness :
  r_pos (buf (snd (plc4c_modbus_read_write_modbus_constants_parse read_zero
    (snd (plc4c_modbus_read_write_modbus_constants_parse read_zero
      (mk_parse_state
         (read_back
            (snd (plc4c_modbus_read_write_modbus_constants_serialize
                    (snd (plc4c_modbus_read_write_modbus_constants_serialize
                            (mk_write_buffer [x00; x00; x00; x00; x00] 3)
                            NULL))
                    NULL))
            3)
         (mk_heap [] 2) NULL))))))
  = 35%nat.
Proof.
  refine (proj2 (proj2 (proj2 (proj2 (proj2
    (two_messages_roundtrip read_zero NULL NULL NULL
       (mk_write_buffer [x00; x00; x00; x00; x00] 3) (mk_heap [] 2) _ _)))))).
  - vm_compute. lia.
  - vm_compute. lia.
Defined.

(** X13 -- a retry does not see the rejected field again. On a read
    buffer with at least 32 bits left and an allocator that can hand out
    two blocks, when a first call returns [PARSE_ERROR] a second call on
    the state it left returns [OK] exactly when the 16 bits after the
    rejected field spell the constant: the rejected bits have been
    consumed. *)
Theorem parse_retry_reads_next_field f (st : parse_state) :
  (32 <= r_remaining (buf st))%nat ->
  (2 <= avail (mem st))%nat ->
  fst (plc4c_modbus_read_write_modbus_constants_parse f st) = PARSE_ERROR ->
  (fst (plc4c_modbus_read_write_modbus_constants_parse f
          (snd (plc4c_modbus_read_write_modbus_constants_parse f st))) = OK
   <-> bits_at (r_data (buf st)) (r_pos (buf st) + 16) 16
       = Bits.of_Z 16
           MODBUS_READ_WRITE_MODBUS_CONSTANTS_MODBUS_TCP_DEFAULT_PORT).
Proof.
  intros Hroom Havail.
  rewrite (parse_in_bounds f st) by lia.
  unfold malloc at 1 2.
  destruct (avail (mem st)) as [|[|n]] eqn:Ea; [lia | lia |].
  cbn [fst snd]. intros _.
  rewrite parse_in_bounds
    by (unfold r_remaining, r_capacity in *; cbn [buf r_data r_pos]; lia).
  cbn [buf mem r_data r_pos malloc avail live fst].
  unfold MODBUS_READ_WRITE_MODBUS_CONSTANTS_MODBUS_TCP_DEFAULT_PORT.
  assert (Hlen : length (bits_at (r_data (buf st)) (r_pos (buf st) + 16) 16)
                 = 16%nat)
    by (apply bits_at_length; unfold r_remaining, r_capacity in Hroom; lia).
  pose proof (pattern_iff_value _ Hlen) as Hpat.
  destruct (Z.eqb_spec
              (Bits.to_Z (bits_at (r_data (buf st)) (r_pos (buf st) + 16) 16))
              502) as [E|N].
  - split; [intros _; apply Hpat, E | reflexivity].
  - split; [discriminate | intros H; apply Hpat in H; contradiction].
Qed.

Lemma parse_retry_reads_next_field_witness :
  fst (plc4c_modbus_read_write_modbus_constants_parse read_zero
         (snd (plc4c_modbus_read_write_modbus_constants_parse read_zero
                 (mk_parse_state (mk_read_buffer [x01; x7f; x01; xf6] 0)
                    (mk_heap [] 2) NULL))))
  = OK.
Proof.
  apply (parse_retry_reads_next_field read_zero
           (mk_parse_state (mk_read_buffer [x01; x7f; x01; xf6] 0)
              (mk_heap [] 2) NULL)).
  - vm_compute. lia.
  - vm_compute. lia.
  - reflexivity.
  - reflexivity.
Defined.
